(** * jina.types.ndarray: the NdArray value codec

    A shallow embedding of [jina/types/ndarray/__init__.py]: the getter and
    setter of [NdArray.value], the batched [NdArray.unravel], and the helpers
    [_get_dense_array], [_set_dense_array], [_get_array_type],
    [_to_framework_array] and [_unravel_dense_array].

    Python exceptions are values of [exn]; a function that may raise returns
    a [result].  A function that may fall off its end returns an [option]
    inside the result ([None] is Python's [None]). *)

From Stdlib Require Import ZArith List String Ascii Lia.
From Stdlib.Strings Require Import Byte.
From stdpp Require Import base option list gmap strings.

Open Scope string_scope.
Open Scope list_scope.

(** ** Exceptions and results *)

Inductive exn : Type :=
| ValueError
| TypeError
| IndexError
| AttributeError
| NotImplementedError
| StopIteration.

Inductive result (A : Type) : Type :=
| Ok (a : A)
| Raise (e : exn).
Arguments Ok {A} a.
Arguments Raise {A} e.

Definition bind {A B} (r : result A) (k : A -> result B) : result B :=
  match r with
  | Ok a => k a
  | Raise e => Raise e
  end.

Notation "'let*' x ':=' r 'in' k" := (bind r (fun x => k))
  (at level 10, x pattern, r at level 100, k at level 200).

Definition is_ok {A} (r : result A) : bool :=
  match r with Ok _ => true | Raise _ => false end.

(** ** The part of numpy the module relies on

    numpy is an external library.  An array is represented by what
    [_set_dense_array] reads off it: the typestring [dtype.str], the shape,
    and the bytes of [tobytes()] (the elements in row-major order). *)

Definition bytes := list byte.

Record ndarray : Type := mk_ndarray {
  nd_dtype : string;
  nd_shape : list nat;
  nd_data : bytes
}.

Definition prod_shape (s : list nat) : nat := fold_right Nat.mul 1 s.

Definition nd_size (x : ndarray) : nat := prod_shape (nd_shape x).

(** Typestrings: a byte-order character, a kind character and the width in
    bytes, for the boolean, integer, floating and complex kinds. *)
Definition byteorder_char (c : ascii) : bool :=
  (Ascii.eqb c "<" || Ascii.eqb c ">" || Ascii.eqb c "|" || Ascii.eqb c "=")%bool.

Definition width_of (w : string) : option nat :=
  if String.eqb w "1" then Some 1
  else if String.eqb w "2" then Some 2
  else if String.eqb w "4" then Some 4
  else if String.eqb w "8" then Some 8
  else if String.eqb w "16" then Some 16
  else if String.eqb w "32" then Some 32
  else None.

Definition kind_allows (k : ascii) (n : nat) : bool :=
  if Ascii.eqb k "b" then Nat.eqb n 1
  else if (Ascii.eqb k "i" || Ascii.eqb k "u")%bool
       then (Nat.eqb n 1 || Nat.eqb n 2 || Nat.eqb n 4 || Nat.eqb n 8)%bool
  else if Ascii.eqb k "f"
       then (Nat.eqb n 2 || Nat.eqb n 4 || Nat.eqb n 8 || Nat.eqb n 16)%bool
  else if Ascii.eqb k "c"
       then (Nat.eqb n 8 || Nat.eqb n 16 || Nat.eqb n 32)%bool
  else false.

(** [np.dtype(s).itemsize], or [None] when the typestring is not understood. *)
Definition dtype_itemsize (s : string) : option nat :=
  match s with
  | String o (String k w) =>
      if byteorder_char o then
        match width_of w with
        | Some n => if kind_allows k n then Some n else None
        | None => None
        end
      else None
  | _ => None
  end.

(** [np.frombuffer(buffer, dtype=dtype)]: a one-dimensional view of the whole
    buffer; the buffer length must be a multiple of the element size.  The
    typestring is kept as it was given; numpy reports the same element type
    under its canonical spelling (see [canonical_typestr] below). *)
Definition np_frombuffer (buffer : bytes) (dtype : string) : result ndarray :=
  match dtype_itemsize dtype with
  | None => Raise TypeError
  | Some sz =>
      if Nat.eqb (length buffer mod sz) 0
      then Ok (mk_ndarray dtype [length buffer / sz] buffer)
      else Raise ValueError
  end.

Definition is_neg (d : Z) : bool := (d <? 0)%Z.

(** [x.reshape(newshape)].  A negative entry stands for the one dimension to
    infer; with it, the known dimensions must have a nonzero product that
    divides the size.  numpy's limit on the number of axes is not part of
    this function (see [NPY_MAXDIMS] below). *)
Definition np_reshape (x : ndarray) (newshape : list Z) : result ndarray :=
  let s_original := Z.of_nat (nd_size x) in
  let s_known :=
    fold_right Z.mul 1%Z (List.filter (fun d => negb (is_neg d)) newshape) in
  match List.filter is_neg newshape with
  | [] =>
      if (s_original =? s_known)%Z
      then Ok (mk_ndarray (nd_dtype x) (map Z.to_nat newshape) (nd_data x))
      else Raise ValueError
  | [_] =>
      if ((s_known =? 0)%Z || negb (s_original mod s_known =? 0)%Z)%bool
      then Raise ValueError
      else Ok (mk_ndarray (nd_dtype x)
                 (map (fun d => Z.to_nat
                                  (if is_neg d then s_original / s_known else d)%Z)
                      newshape)
                 (nd_data x))
  | _ => Raise ValueError
  end.

(** The typestring of numpy's default float, on a little-endian host. *)
Definition float64 : string := "<f8".

(** The array [np.zeros(shape)] creates: float64 zeros, whose bytes are all
    zero.  Whether numpy can create it is a separate matter (see
    [np_zeros_feasible] below). *)
Definition np_zeros (shape : list nat) : ndarray :=
  mk_ndarray float64 shape (repeat x00 (prod_shape shape * 8)).

(** [x[k]] on an array with at least one axis: for row-major data the k-th
    block of [prod(shape[1:]) * itemsize] bytes. *)
Definition np_getitem (x : ndarray) (k : nat) : result ndarray :=
  match nd_shape x, dtype_itemsize (nd_dtype x) with
  | n :: rest, Some sz =>
      if Nat.ltb k n then
        let w := prod_shape rest * sz in
        Ok (mk_ndarray (nd_dtype x) rest (firstn w (skipn (k * w) (nd_data x))))
      else Raise IndexError
  | _, _ => Raise IndexError
  end.

(** An array as numpy holds it: a known element type and as many bytes as
    the shape asks for. *)
Definition wf_ndarray (x : ndarray) : Prop :=
  exists sz, dtype_itemsize (nd_dtype x) = Some sz /\
             length (nd_data x) = nd_size x * sz.

(** The i-th element of an array in flat (row-major) order, as its bytes. *)
Definition nd_item (x : ndarray) (i : nat) : bytes :=
  match dtype_itemsize (nd_dtype x) with
  | Some sz => firstn sz (skipn (i * sz) (nd_data x))
  | None => []
  end.

Definition nd_items (x : ndarray) : list bytes :=
  map (nd_item x) (seq 0 (nd_size x)).

(** [x[:, j]] of a two-dimensional array with [ncols] columns. *)
Definition np_column (x : ndarray) (ncols j : nat) : ndarray :=
  let nrows := hd 0 (nd_shape x) in
  mk_ndarray (nd_dtype x) [nrows]
    (flat_map (fun r => nd_item x (r * ncols + j)) (seq 0 nrows)).

(** [np.stack([a, b], axis=1)] of two one-dimensional arrays of one element
    type and one length: row r is (a[r], b[r]). *)
Definition np_stack_axis1 (a b : ndarray) : result ndarray :=
  match nd_shape a, nd_shape b with
  | [n], [m] =>
      if (Nat.eqb n m && String.eqb (nd_dtype a) (nd_dtype b))%bool
      then Ok (mk_ndarray (nd_dtype a) [n; 2]
                 (flat_map (fun r => nd_item a r ++ nd_item b r) (seq 0 n)))
      else Raise ValueError
  | _, _ => Raise ValueError
  end.

(** The [w] low-order bytes of [n], least significant first. *)
Fixpoint le_bytes (w : nat) (n : N) : bytes :=
  match w with
  | 0 => []
  | S w' =>
      match Byte.of_N (n mod 256)%N with
      | Some b => b
      | None => x00
      end :: le_bytes w' (n / 256)%N
  end.

(** A Python int as the eight little-endian bytes of a numpy int64. *)
Definition int64_le (n : nat) : bytes := le_bytes 8 (N.of_nat n).

(** [np.asarray(l)] of a list of Python ints. *)
Definition np_asarray_ints (l : list nat) : ndarray :=
  mk_ndarray "<i8" [length l] (flat_map int64_le l).

(** ** The wire record

    Modelled from the spec: the protobuf messages of [jina_pb2] (generated
    code, not part of the module) are the records of the spec's data model:
    a dense element buffer (bytes, shape, dtype string), a sparse value
    (indices and values buffers plus the dense shape), and the record itself
    with its backend tag [cls_name], its string-to-string [parameters] and
    the one-of [content]. *)

Record DenseNdArrayProto : Type := mk_dense {
  buffer : bytes;
  shape : list nat;
  dtype : string
}.

Record SparseNdArrayProto : Type := mk_sparse {
  indices : DenseNdArrayProto;
  values : DenseNdArrayProto;
  sparse_shape : list nat
}.

Inductive Content : Type :=
| NoContent
| Dense (d : DenseNdArrayProto)
| Sparse (s : SparseNdArrayProto).

Record NdArrayProto : Type := mk_proto {
  cls_name : string;
  parameters : gmap string string;
  content : Content
}.

Definition default_dense : DenseNdArrayProto := mk_dense [] [] "".
Definition default_sparse : SparseNdArrayProto :=
  mk_sparse default_dense default_dense [].

(** Reading [p.dense] or [p.sparse]: the arm when it is the populated one,
    the default message otherwise. *)
Definition dense_of (p : NdArrayProto) : DenseNdArrayProto :=
  match content p with Dense d => d | _ => default_dense end.

Definition sparse_of (p : NdArrayProto) : SparseNdArrayProto :=
  match content p with Sparse s => s | _ => default_sparse end.

Definition WhichOneof (p : NdArrayProto) : option string :=
  match content p with
  | NoContent => None
  | Dense _ => Some "dense"
  | Sparse _ => Some "sparse"
  end.

(** Writing through [p.dense] or [p.sparse] makes that arm the populated one;
    the other arm is dropped. *)
Definition upd_dense (f : DenseNdArrayProto -> DenseNdArrayProto)
    (p : NdArrayProto) : NdArrayProto :=
  mk_proto (cls_name p) (parameters p) (Dense (f (dense_of p))).

Definition upd_sparse (f : SparseNdArrayProto -> SparseNdArrayProto)
    (p : NdArrayProto) : NdArrayProto :=
  mk_proto (cls_name p) (parameters p) (Sparse (f (sparse_of p))).

Definition set_cls_name (s : string) (p : NdArrayProto) : NdArrayProto :=
  mk_proto s (parameters p) (content p).

Definition set_parameter (k v : string) (p : NdArrayProto) : NdArrayProto :=
  mk_proto (cls_name p) (<[k := v]> (parameters p)) (content p).

Definition upd_indices (f : DenseNdArrayProto -> DenseNdArrayProto)
    (s : SparseNdArrayProto) : SparseNdArrayProto :=
  mk_sparse (f (indices s)) (values s) (sparse_shape s).

Definition upd_values (f : DenseNdArrayProto -> DenseNdArrayProto)
    (s : SparseNdArrayProto) : SparseNdArrayProto :=
  mk_sparse (indices s) (f (values s)) (sparse_shape s).

Definition set_sparse_shape (l : list nat) (s : SparseNdArrayProto)
    : SparseNdArrayProto :=
  mk_sparse (indices s) (values s) l.

(** [parameters[key]]: reading a key that holds no value raises. *)
Definition parameters_getitem (m : gmap string string) (key : string)
    : result string :=
  match m !! key with
  | Some v => Ok v
  | None => Raise ValueError
  end.

(** ** Dense buffers *)

Definition _get_dense_array (source : DenseNdArrayProto)
    : result (option ndarray) :=
  match buffer source with
  | _ :: _ =>
      let* x := np_frombuffer (buffer source) (dtype source) in
      let* y := np_reshape x (map Z.of_nat (shape source)) in
      Ok (Some y)
  | [] =>
      if Nat.ltb 0 (length (shape source))
      then Ok (Some (np_zeros (shape source)))
      else Ok None
  end.

Definition _set_dense_array (value : ndarray) (target : DenseNdArrayProto)
    : DenseNdArrayProto :=
  let t1 := mk_dense (nd_data value) (shape target) (dtype target) in
  let t2 := mk_dense (buffer t1) [] (dtype t1) in
  let t3 := mk_dense (buffer t2) (shape t2 ++ nd_shape value) (dtype t2) in
  mk_dense (buffer t3) (shape t3) (nd_dtype value).

Definition _unravel_dense_array (source : list bytes) (shape : list nat)
    (dtype : string) : result ndarray :=
  let x_mat := concat source in
  let shape := (-1)%Z :: map Z.of_nat shape in
  let* x := np_frombuffer x_mat dtype in
  np_reshape x shape.

(** ** Framework values

    The values the module exchanges with its callers.  A framework tensor or
    matrix is represented by the arrays it is built from or hands out
    ([numpy()], [tocoo()], [coalesce().indices()], ...); the frameworks are
    external and only the structural checks of their constructors are
    written out, not their checks on element values (coordinates within
    bounds and the like). *)

Definition loc := nat.

Record spmatrix : Type := mk_spmatrix {
  sp_format : string;      (* getformat() *)
  sp_data : ndarray;       (* tocoo().data *)
  sp_row : ndarray;        (* tocoo().row *)
  sp_col : ndarray;        (* tocoo().col *)
  sp_shape : list nat
}.

Inductive PyValue : Type :=
| NumpyArray (x : ndarray)
| JinaNdArray (pb_body : loc)
| JinaNdArrayProto (pb : loc)
| TfTensor (x : ndarray)
| TfSparseTensor (idx val : ndarray) (dense_shape : list nat)
| TorchTensor (x : ndarray)
| TorchSparseTensor (idx val : ndarray) (size : list nat)
| PaddleTensor (x : ndarray)
| ScipySparse (m : spmatrix)
| Foreign (module_tags : list string) (class_name : string).

(** [array.__class__.__module__.split('.')] *)
Definition py_module_tags (v : PyValue) : list string :=
  match v with
  | NumpyArray _ => ["numpy"]
  | JinaNdArray _ => ["jina"; "types"; "ndarray"]
  | JinaNdArrayProto _ => ["jina_pb2"]
  | TfTensor _ => ["tensorflow"; "python"; "framework"; "ops"]
  | TfSparseTensor _ _ _ => ["tensorflow"; "python"; "framework"; "sparse_tensor"]
  | TorchTensor _ | TorchSparseTensor _ _ _ => ["torch"]
  | PaddleTensor _ => ["paddle"]
  | ScipySparse m => ["scipy"; "sparse"; String.append "_" (sp_format m)]
  | Foreign tags _ => tags
  end.

(** [array.__class__.__name__] *)
Definition py_class_name (v : PyValue) : string :=
  match v with
  | NumpyArray _ => "ndarray"
  | JinaNdArray _ => "NdArray"
  | JinaNdArrayProto _ => "NdArrayProto"
  | TfTensor _ => "EagerTensor"
  | TfSparseTensor _ _ _ => "SparseTensor"
  | TorchTensor _ | TorchSparseTensor _ _ _ => "Tensor"
  | PaddleTensor _ => "Tensor"
  | ScipySparse m => String.append (sp_format m) "_matrix"
  | Foreign _ name => name
  end.

(** [array.is_sparse]; a value of a foreign class has no array attribute. *)
Definition py_is_sparse (v : PyValue) : result bool :=
  match v with
  | TorchTensor _ => Ok false
  | TorchSparseTensor _ _ _ => Ok true
  | _ => Raise AttributeError
  end.

(** [value.numpy()], [value.detach().cpu().numpy()], or the array itself. *)
Definition py_numpy (v : PyValue) : result ndarray :=
  match v with
  | NumpyArray x | TfTensor x | TorchTensor x | PaddleTensor x => Ok x
  | _ => Raise AttributeError
  end.

Definition mem (s : string) (l : list string) : bool :=
  existsb (String.eqb s) l.

Definition _get_array_type (array : PyValue) : result (string * bool) :=
  let module_tags := py_module_tags array in
  let class_name := py_class_name array in
  if mem "numpy" module_tags then Ok ("numpy", false)
  else if (mem "jina" module_tags && String.eqb class_name "NdArray")%bool
  then Ok ("jina", false)
  else if (mem "jina_pb2" module_tags
           && String.eqb class_name "NdArrayProto")%bool
  then Ok ("jina_proto", false)
  else if (mem "tensorflow" module_tags
           && String.eqb class_name "SparseTensor")%bool
  then Ok ("tensorflow", true)
  else if (mem "tensorflow" module_tags
           && (String.eqb class_name "Tensor"
               || String.eqb class_name "EagerTensor"))%bool
  then Ok ("tensorflow", false)
  else if (mem "torch" module_tags && String.eqb class_name "Tensor")%bool
  then let* s := py_is_sparse array in Ok ("torch", s)
  else if (mem "paddle" module_tags && String.eqb class_name "Tensor")%bool
  then Ok ("paddle", false)
  else if (mem "scipy" module_tags && mem "sparse" module_tags)%bool
  then Ok ("scipy", true)
  else Raise TypeError.

(** [convert_to_tensor], [from_numpy] and [to_tensor] do not take [None].
    For an array they are described by the tensor they return; the element
    types they take are listed as [tensor_typestrs] below. *)
Definition _to_framework_array (x : option ndarray) (framework : string)
    : result (option PyValue) :=
  if String.eqb framework "numpy" then Ok (NumpyArray <$> x)
  else if String.eqb framework "tensorflow" then
    match x with Some a => Ok (Some (TfTensor a)) | None => Raise ValueError end
  else if String.eqb framework "torch" then
    match x with Some a => Ok (Some (TorchTensor a)) | None => Raise TypeError end
  else if String.eqb framework "paddle" then
    match x with Some a => Ok (Some (PaddleTensor a)) | None => Raise TypeError end
  else Ok None.

(** The membership test [framework in {'numpy', 'torch', 'paddle', 'tensorflow'}]. *)
Definition dense_framework (framework : string) : bool :=
  mem framework ["numpy"; "torch"; "paddle"; "tensorflow"].

(** [scipy.sparse.coo_matrix((val, idx.T), shape=shape)]: [idx.T] must unpack
    into a row and a column array, which must be as long as the data.  The
    check scipy makes on the coordinates themselves (none negative, none
    beyond the shape) is not written out. *)
Definition coo_matrix (val idx : option ndarray) (shape : list nat)
    : result spmatrix :=
  match idx with
  | None => Raise AttributeError
  | Some i =>
      match nd_shape i, val, shape with
      | [nnz; 2], Some v, [_; _] =>
          if decide (nd_shape v = [nnz])
          then Ok (mk_spmatrix "coo" v (np_column i 2 0) (np_column i 2 1) shape)
          else Raise ValueError
      | [_; 2], _, _ => Raise ValueError
      | _, _, _ => Raise TypeError
      end
  end.

(** [scipy.sparse.csr_matrix((vals, (rows, cols)), shape=shape)] with [rows]
    a list of Python ints.  The matrix is represented by the arrays it is
    built from; scipy's check of the coordinates against the shape and its
    merging of entries that share a coordinate are not written out. *)
Definition csr_matrix (vals : ndarray) (rows : list nat) (cols : ndarray)
    (shape : nat * nat) : result spmatrix :=
  if decide (nd_shape vals = [length rows] /\ nd_shape cols = [length rows])
  then Ok (mk_spmatrix "csr" vals (np_asarray_ints rows) cols
             [fst shape; snd shape])
  else Raise ValueError.

(** [x.tobsr()], [x.tocsc()], [x.tocsr()]: the same matrix in another layout,
    represented by the coordinate arrays it was converted from; scipy's
    merging, sorting and re-blocking of the entries is not written out, and
    no property below speaks of the arrays of a converted matrix. *)
Definition to_format (fmt : string) (x : spmatrix) : spmatrix :=
  mk_spmatrix fmt (sp_data x) (sp_row x) (sp_col x) (sp_shape x).

(** [tensorflow.SparseTensor(idx, val, shape)] *)
Definition SparseTensor (idx val : option ndarray) (shape : list nat)
    : result PyValue :=
  match idx, val with
  | Some i, Some v => Ok (TfSparseTensor i v shape)
  | _, _ => Raise ValueError
  end.

(** [torch.sparse_coo_tensor(idx, val, shape)] *)
Definition sparse_coo_tensor (idx val : option ndarray) (shape : list nat)
    : result PyValue :=
  match idx, val with
  | Some i, Some v => Ok (TorchSparseTensor i v shape)
  | _, _ => Raise TypeError
  end.

(** What the setter reads off its argument. *)
Definition py_pb_body (v : PyValue) : result loc :=
  match v with JinaNdArray l => Ok l | _ => Raise AttributeError end.

Definition py_proto (v : PyValue) : result loc :=
  match v with JinaNdArrayProto l => Ok l | _ => Raise TypeError end.

Definition py_scipy (v : PyValue) : result spmatrix :=
  match v with ScipySparse m => Ok m | _ => Raise AttributeError end.

Definition py_tf_sparse (v : PyValue) : result (ndarray * ndarray * list nat) :=
  match v with
  | TfSparseTensor i x s => Ok (i, x, s)
  | _ => Raise AttributeError
  end.

(** [value.coalesce().indices()], [value.coalesce().values()], [value.size()] *)
Definition py_torch_sparse (v : PyValue)
    : result (ndarray * ndarray * list nat) :=
  match v with
  | TorchSparseTensor i x s => Ok (i, x, s)
  | _ => Raise AttributeError
  end.

(** [np.array(l, dtype=np.int32)] of a list of Python ints. *)
Definition int32_le (n : nat) : bytes := le_bytes 4 (N.of_nat n).

Definition np_array_int32 (l : list nat) : ndarray :=
  mk_ndarray "<i4" [length l] (flat_map int32_le l).

(** The message objects live in a store: two [NdArray] wrappers, or a wrapper
    and a raw message, may refer to one object. *)
Definition store := loc -> NdArrayProto.

Definition upd (s : store) (l : loc) (p : NdArrayProto) : store :=
  fun l' => if Nat.eqb l l' then p else s l'.

(** [dst.CopyFrom(src)]: nothing happens when both are the same object;
    otherwise [dst] is cleared and becomes a copy of [src]. *)
Definition CopyFrom (dst src : loc) (s : store) : store :=
  if Nat.eqb dst src then s else upd s dst (s src).

(** ** The NdArray class *)

Module NdArray.

Definition is_sparse (p : NdArrayProto) : bool :=
  match WhichOneof p with
  | Some w => String.eqb w "sparse"
  | None => false
  end.

Definition _get_raw_sparse_array (p : NdArrayProto)
    : result (option ndarray * option ndarray * list nat) :=
  let* idx := _get_dense_array (indices (sparse_of p)) in
  let* val := _get_dense_array (values (sparse_of p)) in
  let shape := sparse_shape (sparse_of p) in
  Ok (idx, val, shape).

(** The getter of the [value] property. *)
Definition value (p : NdArrayProto) : result (option PyValue) :=
  let framework := cls_name p in
  if is_sparse p then
    if String.eqb framework "scipy" then
      let* (idx, val, shape) := _get_raw_sparse_array p in
      let* x := coo_matrix val idx shape in
      let* sp_format := parameters_getitem (parameters p) "sparse_format" in
      if String.eqb sp_format "bsr" then Ok (Some (ScipySparse (to_format "bsr" x)))
      else if String.eqb sp_format "csc" then Ok (Some (ScipySparse (to_format "csc" x)))
      else if String.eqb sp_format "csr" then Ok (Some (ScipySparse (to_format "csr" x)))
      else if String.eqb sp_format "coo" then Ok (Some (ScipySparse x))
      else Ok None
    else if String.eqb framework "tensorflow" then
      let* (idx, val, shape) := _get_raw_sparse_array p in
      let* t := SparseTensor idx val shape in
      Ok (Some t)
    else if String.eqb framework "torch" then
      let* (idx, val, shape) := _get_raw_sparse_array p in
      let* t := sparse_coo_tensor idx val shape in
      Ok (Some t)
    else Ok None
  else
    if dense_framework framework then
      let* x := _get_dense_array (dense_of p) in
      _to_framework_array x framework
    else Ok None.

Definition _set_scipy_sparse (value : spmatrix) (p : NdArrayProto)
    : result NdArrayProto :=
  let* indices := np_stack_axis1 (sp_row value) (sp_col value) in
  let p := upd_sparse (upd_indices (_set_dense_array indices)) p in
  let p := upd_sparse (upd_values (_set_dense_array (sp_data value))) p in
  let p := upd_sparse (set_sparse_shape []) p in
  let p := upd_sparse (fun s => set_sparse_shape
                                  (sparse_shape s ++ sp_shape value) s) p in
  Ok (set_cls_name "scipy" p).

Definition _set_tf_sparse (value : ndarray * ndarray * list nat)
    (p : NdArrayProto) : NdArrayProto :=
  let '(idx, val, dense_shape) := value in
  let p := upd_sparse (upd_indices (_set_dense_array idx)) p in
  let p := upd_sparse (upd_values (_set_dense_array val)) p in
  let p := upd_sparse (set_sparse_shape []) p in
  let p := upd_sparse (fun s => set_sparse_shape
                                  (sparse_shape s ++ dense_shape) s) p in
  set_cls_name "tensorflow" p.

Definition _set_torch_sparse (value : ndarray * ndarray * list nat)
    (p : NdArrayProto) : NdArrayProto :=
  let '(idx, val, size) := value in
  let p := upd_sparse (upd_indices (_set_dense_array idx)) p in
  let p := upd_sparse (upd_values (_set_dense_array val)) p in
  let p := upd_sparse (set_sparse_shape []) p in
  let p := upd_sparse (fun s => set_sparse_shape (sparse_shape s ++ size) s) p in
  set_cls_name "torch" p.

(** The branches of the setter that encode a framework value into the
    message [p]. *)
Definition set_framework_value (framework : string) (is_sparse : bool)
    (value : PyValue) (p : NdArrayProto) : result NdArrayProto :=
  if is_sparse then
    let* p :=
      if String.eqb framework "scipy" then
        let* m := py_scipy value in
        _set_scipy_sparse m (set_parameter "sparse_format" (sp_format m) p)
      else Ok p in
    let* p :=
      if String.eqb framework "tensorflow" then
        let* t := py_tf_sparse value in Ok (_set_tf_sparse t p)
      else Ok p in
    if String.eqb framework "torch" then
      let* t := py_torch_sparse value in Ok (_set_torch_sparse t p)
    else Ok p
  else
    let dense_branch (tag : string) (p : NdArrayProto) :=
      if String.eqb framework tag then
        let p := set_cls_name tag p in
        let* x := py_numpy value in
        Ok (upd_dense (_set_dense_array x) p)
      else Ok p in
    let* p := dense_branch "numpy" p in
    let* p := dense_branch "tensorflow" p in
    let* p := dense_branch "torch" p in
    dense_branch "paddle" p.

(** The setter of the [value] property, on the wrapper of the message at
    [self]. *)
Definition value_setter (self : loc) (value : PyValue) (s : store)
    : result store :=
  let* (framework, is_sparse) := _get_array_type value in
  if String.eqb framework "jina" then
    let s := upd s self (set_cls_name "numpy" (s self)) in
    let* src := py_pb_body value in
    Ok (CopyFrom self src s)
  else if String.eqb framework "jina_proto" then
    let s := upd s self (set_cls_name "numpy" (s self)) in
    let* src := py_proto value in
    Ok (CopyFrom self src s)
  else
    let* p := set_framework_value framework is_sparse value (s self) in
    Ok (upd s self p).

(** The loop of the scipy branch of [unravel]: record k contributes its
    indices and values buffers and [values.shape[0]] copies of k. *)
Fixpoint scipy_gather (k : nat) (protos : list NdArrayProto)
    (acc : bytes * bytes * list nat) : result (bytes * bytes * list nat) :=
  match protos with
  | [] => Ok acc
  | pb_body_k :: rest =>
      let '(indices_bytes, values_bytes, row_indices) := acc in
      let indices_bytes :=
        indices_bytes ++ buffer (indices (sparse_of pb_body_k)) in
      let values_bytes :=
        values_bytes ++ buffer (values (sparse_of pb_body_k)) in
      match shape (values (sparse_of pb_body_k)) with
      | n :: _ =>
          scipy_gather (S k) rest
            (indices_bytes, values_bytes, row_indices ++ repeat k n)
      | [] => Raise IndexError
      end
  end.

Section Unravel.

(** [np.vstack([a, b])] and [np.concatenate(l, axis=-1)], which convert
    their arguments to a common element type, are left to numpy. *)
Variable np_vstack : ndarray -> ndarray -> result ndarray.
Variable np_concatenate_last : list ndarray -> result ndarray.

(** The loop of the torch branch of [unravel]. *)
Fixpoint torch_gather (j : nat) (protos : list NdArrayProto)
    (all_ds : list ndarray) : result (list ndarray) :=
  match protos with
  | [] => Ok all_ds
  | p :: rest =>
      let* _d := _get_dense_array (indices (sparse_of p)) in
      match _d with
      | None => Raise AttributeError
      | Some _d =>
          match rev (nd_shape _d) with
          | [] => Raise IndexError
          | n :: _ =>
              let _idx := np_array_int32 (repeat j n) in
              let* _idx := np_reshape _idx [1; -1]%Z in
              let* _d := np_vstack _idx _d in
              torch_gather (S j) rest (all_ds ++ [_d])
          end
      end
  end.

Definition unravel (protos : list NdArrayProto) : result (option PyValue) :=
  match protos with
  | [] => Raise StopIteration
  | first :: _ =>
      let framework := cls_name first in
      if is_sparse first then
        if mem framework ["tensorflow"] then Raise NotImplementedError
        else
          (* reached when the scipy branch does not return *)
          let torch_branch :=
            if String.eqb framework "torch" then
              let* all_ds := torch_gather 0 protos [] in
              let* val :=
                _unravel_dense_array
                  (map (fun d => buffer (values (sparse_of d))) protos)
                  [] (dtype (values (sparse_of first))) in
              let* idx := np_concatenate_last all_ds in
              let shape := length protos :: sparse_shape (sparse_of first) in
              let* t := sparse_coo_tensor (Some idx) (Some val) shape in
              Ok (Some t)
            else Ok None in
          if String.eqb framework "scipy" then
            let n_examples := length protos in
            match sparse_shape (sparse_of first) with
            | _ :: n_features :: _ =>
                let indices_dtype := dtype (indices (sparse_of first)) in
                let values_dtype := dtype (values (sparse_of first)) in
                let* (indices_bytes, values_bytes, row_indices) :=
                  scipy_gather 0 protos ([], [], []) in
                if negb (String.eqb (dtype (values (sparse_of first))) "")
                then
                  let* indices_np :=
                    np_frombuffer indices_bytes indices_dtype in
                  let* m := np_reshape indices_np [2; -1]%Z in
                  let* cols_np := np_getitem m 1 in
                  let* vals_np := np_frombuffer values_bytes values_dtype in
                  let* r := csr_matrix vals_np row_indices cols_np
                              (n_examples, n_features) in
                  Ok (Some (ScipySparse r))
                else torch_branch
            | _ => Raise IndexError
            end
          else torch_branch
      else
        if dense_framework framework then
          let* x :=
            _unravel_dense_array
              (map (fun d => buffer (dense_of d)) protos)
              (shape (dense_of first)) (dtype (dense_of first)) in
          _to_framework_array (Some x) framework
        else Ok None
  end.

End Unravel.

End NdArray.

(** * Predicates and sample values used in the properties *)

(** A scipy record holding the 2x2 matrix with 5.0 at (0,1) and 2.0 at (1,0),
    int32 coordinates and float32 values, with the given format hint. *)
Definition scipy_record (fmt : string) : NdArrayProto :=
  mk_proto "scipy" {[ "sparse_format" := fmt ]}
    (Sparse (mk_sparse
       (mk_dense [x00; x00; x00; x00;  x01; x00; x00; x00;
                  x01; x00; x00; x00;  x00; x00; x00; x00] [2; 2] "<i4")
       (mk_dense [x00; x00; xa0; x40;  x00; x00; x00; x40] [2] "<f4")
       [2; 2])).

Definition tf_sparse_record : NdArrayProto :=
  mk_proto "tensorflow" ∅
    (Sparse (mk_sparse
       (mk_dense [x00; x00; x00; x00; x00; x00; x00; x00;
                  x01; x00; x00; x00; x00; x00; x00; x00] [1; 2] "<i8")
       (mk_dense [x00; x00; xa0; x40] [1] "<f4")
       [2; 2])).

(** What the two pass-through branches of the setter leave in the store:
    the message at [self] and the message at [src] are the same; the arm
    (and with it the buffer bytes) is the one [src] had; and the whole
    message is the one [src] had, unless [self] and [src] are one object,
    which keeps its content and is tagged numpy. *)
Definition copied_verbatim (s s' : store) (self src : loc) : Prop :=
  s' self = s' src /\
  cls_name (s' self) = cls_name (s' src) /\
  content (s' self) = content (s src) /\
  s' self = (if Nat.eqb self src then set_cls_name "numpy" (s src)
             else s src).

(** A store of empty messages. *)
Definition fresh_store : store := fun _ => mk_proto "" ∅ NoContent.

(** The float32 matrix [[1, 2], [3, 4]]. *)
Definition matrix_2x2_f4 : ndarray :=
  mk_ndarray "<f4" [2; 2]
    [x00; x00; x80; x3f;  x00; x00; x00; x40;
     x00; x00; x40; x40;  x00; x00; x80; x40].

(** [np.zeros((0,), dtype=np.float32)] *)
Definition empty_f4 : ndarray := mk_ndarray "<f4" [0] [].





(** The coalesced torch tensor of size (2, 3) with float32 values at
    (0,1), (1,0) and (1,2): three non-zeros in two dimensions. *)
Definition torch_sparse_2x3 : PyValue :=
  TorchSparseTensor
    (mk_ndarray "<i8" [2; 3] (flat_map int64_le [0; 1; 1;  1; 0; 2]))
    (mk_ndarray "<f4" [3] [x00; x00; x80; x3f;  x00; x00; x00; x40;
                           x00; x00; x40; x40])
    [2; 3].




(** Stand-ins for numpy's [vstack] and [concatenate] on paths that do not
    call them. *)
Definition no_vstack : ndarray -> ndarray -> result ndarray :=
  fun _ _ => Raise NotImplementedError.
Definition no_concatenate : list ndarray -> result ndarray :=
  fun _ => Raise NotImplementedError.

(** Two numpy records of shape [2] and dtype float32: [1, 2] and [3, 4]. *)
Definition pair_record_a : NdArrayProto :=
  mk_proto "numpy" ∅
    (Dense (mk_dense [x00; x00; x80; x3f;  x00; x00; x00; x40] [2] "<f4")).


Definition bytes_eqb (a b : bytes) : bool :=
  if List.list_eq_dec Byte.byte_eq_dec a b then true else false.

(** The entries of row [k] of a matrix, as (column, value) elements in
    storage order. *)
Definition row_entries (m : spmatrix) (k : nat) : list (bytes * bytes) :=
  map snd
    (List.filter (fun e => bytes_eqb (fst e) (int64_le k))
       (combine (nd_items (sp_row m))
                (combine (nd_items (sp_col m)) (nd_items (sp_data m))))).

(** What the specification asks row k of the batch to hold: the values of
    record k at the column coordinates of record k, the second column of its
    (nnz, 2) indices.  Columns are compared as int32 elements. *)
Definition spec_row_entries (p : NdArrayProto) : result (list (bytes * bytes)) :=
  let* (idx, val, _) := NdArray._get_raw_sparse_array p in
  match idx, val with
  | Some i, Some v => Ok (combine (nd_items (np_column i 2 1)) (nd_items v))
  | _, _ => Ok []
  end.

(** Two scipy records, each a 1x8 row with one non-zero: 5.0 at column 3
    and 2.0 at column 5 (int32 coordinates, float32 values). *)
Definition scipy_row_a : NdArrayProto :=
  mk_proto "scipy" {[ "sparse_format" := "csr" ]}
    (Sparse (mk_sparse
       (mk_dense [x00; x00; x00; x00;  x03; x00; x00; x00] [1; 2] "<i4")
       (mk_dense [x00; x00; xa0; x40] [1] "<f4")
       [1; 8])).
Definition scipy_row_b : NdArrayProto :=
  mk_proto "scipy" {[ "sparse_format" := "csr" ]}
    (Sparse (mk_sparse
       (mk_dense [x00; x00; x00; x00;  x05; x00; x00; x00] [1; 2] "<i4")
       (mk_dense [x00; x00; x00; x40] [1] "<f4")
       [1; 8])).

(** The parameters of a record after a framework value was set on it: a
    scipy matrix records its format, any other value leaves them alone. *)
Definition parameters_after_set (v : PyValue) (params : gmap string string)
    : gmap string string :=
  match v with
  | ScipySparse m => <["sparse_format" := sp_format m]> params
  | _ => params
  end.

(** The cases in which the getter returns the absent value on a record that
    is not a scipy sparse record. *)
Definition value_absent_cases (p : NdArrayProto) : Prop :=
  (NdArray.is_sparse p = true /\
   cls_name p <> "scipy" /\ cls_name p <> "tensorflow" /\
   cls_name p <> "torch") \/
  (NdArray.is_sparse p = false /\ dense_framework (cls_name p) = false) \/
  (NdArray.is_sparse p = false /\ cls_name p = "numpy" /\
   buffer (dense_of p) = [] /\ shape (dense_of p) = []).

(** The csr matrix of shape (2, 2) with 5.0 at (0,1) and 2.0 at (1,0), as
    [tocoo()] hands it out: int32 coordinates, float32 values. *)
Definition scipy_matrix_2x2 : spmatrix :=
  mk_spmatrix "csr"
    (mk_ndarray "<f4" [2] [x00; x00; xa0; x40;  x00; x00; x00; x40])
    (mk_ndarray "<i4" [2] [x00; x00; x00; x00;  x01; x00; x00; x00])
    (mk_ndarray "<i4" [2] [x01; x00; x00; x00;  x00; x00; x00; x00])
    [2; 2].


(** The matrix [scipy_matrix_2x2] in dictionary-of-keys format. *)
Definition scipy_matrix_dok : spmatrix :=
  mk_spmatrix "dok" (sp_data scipy_matrix_2x2) (sp_row scipy_matrix_2x2)
    (sp_col scipy_matrix_2x2) [2; 2].



(** The typestrings, on a little-endian host, of the element types that
    tensorflow, torch and paddle all take over from a numpy array: bool,
    int8, uint8, int16, int32, int64, float16, float32, float64, complex64
    and complex128 in native byte order.  [torch.from_numpy] and its
    counterparts raise on other element types and on a foreign byte order;
    [_to_framework_array] above describes the tensor they return. *)
Definition tensor_typestrs : list string :=
  ["|b1"; "|i1"; "|u1"; "<i2"; "<i4"; "<i8";
   "<f2"; "<f4"; "<f8"; "<c8"; "<c16"].

(** Whether the framework holds arrays of the dtype: numpy keeps every
    array as it is. *)
Definition framework_holds (framework dtype : string) : bool :=
  if String.eqb framework "numpy" then true
  else mem dtype tensor_typestrs.

(** The typestrings numpy itself reports as [dtype.str]: '|' for one-byte
    element types, '<' or '>' for wider ones.  numpy reads other spellings
    ('=f4', '<i1') as the same element type and reports the canonical
    one. *)
Definition canonical_typestr (s : string) : bool :=
  match s with
  | String o (String _ w) =>
      if String.eqb w "1" then Ascii.eqb o "|"
      else (Ascii.eqb o "<" || Ascii.eqb o ">")%bool
  | _ => false
  end.



(** The matrix [scipy_matrix_2x2] in coordinate format. *)
Definition scipy_matrix_coo : spmatrix :=
  mk_spmatrix "coo" (sp_data scipy_matrix_2x2) (sp_row scipy_matrix_2x2)
    (sp_col scipy_matrix_2x2) [2; 2].

(** * Properties *)

(** ** numpy: element sizes, frombuffer and reshape *)

Lemma dtype_itemsize_pos (s : string) (sz : nat) :
  dtype_itemsize s = Some sz -> 0 < sz.
Proof.
  unfold dtype_itemsize.
  destruct s as [|o [|k w]]; try discriminate.
  destruct (byteorder_char o); try discriminate.
  unfold width_of.
  repeat (destruct (String.eqb w _);
          [ destruct (kind_allows _ _); intros [= <-]; lia | ]).
  discriminate.
Qed.

Lemma prod_shape_of_nat (s : list nat) :
  fold_right Z.mul 1%Z (map Z.of_nat s) = Z.of_nat (prod_shape s).
Proof.
  induction s as [|d s IH]; simpl; [ reflexivity | ].
  rewrite IH. lia.
Qed.

Lemma filter_neg_of_nat (s : list nat) :
  List.filter is_neg (map Z.of_nat s) = [].
Proof.
  induction s as [|d s IH]; simpl; [ reflexivity | ].
  unfold is_neg at 1. destruct (Z.ltb_spec (Z.of_nat d) 0); [ lia | exact IH ].
Qed.

Lemma filter_nonneg_of_nat (s : list nat) :
  List.filter (fun d => negb (is_neg d)) (map Z.of_nat s) = map Z.of_nat s.
Proof.
  induction s as [|d s IH]; simpl; [ reflexivity | ].
  unfold is_neg at 1. destruct (Z.ltb_spec (Z.of_nat d) 0); [ lia | ].
  simpl. now rewrite IH.
Qed.

Lemma to_nat_of_nat (s : list nat) : map Z.to_nat (map Z.of_nat s) = s.
Proof.
  induction s as [|d s IH]; simpl; [ reflexivity | ].
  now rewrite Nat2Z.id, IH.
Qed.

(** A buffer of [n] whole elements is read as a flat array of [n] elements. *)
Lemma np_frombuffer_whole (b : bytes) (dt : string) (sz n : nat) :
  dtype_itemsize dt = Some sz ->
  length b = n * sz ->
  np_frombuffer b dt = Ok (mk_ndarray dt [n] b).
Proof.
  intros Hsz Hlen. pose proof (dtype_itemsize_pos _ _ Hsz) as Hpos.
  unfold np_frombuffer. rewrite Hsz, Hlen.
  rewrite Nat.Div0.mod_mul. simpl.
  rewrite Nat.div_mul by lia. reflexivity.
Qed.

(** Reshaping a flat array to a shape of the same size keeps the bytes. *)
Lemma np_reshape_same_size (dt : string) (n : nat) (b : bytes) (s : list nat) :
  n = prod_shape s ->
  np_reshape (mk_ndarray dt [n] b) (map Z.of_nat s) = Ok (mk_ndarray dt s b).
Proof.
  intros ->. unfold np_reshape, nd_size. simpl.
  rewrite filter_neg_of_nat, filter_nonneg_of_nat, prod_shape_of_nat.
  rewrite Nat.mul_1_r, Z.eqb_refl, to_nat_of_nat. reflexivity.
Qed.



(** With a known dimension of size zero nothing can be inferred. *)
Lemma np_reshape_infer_zero (x : ndarray) (s : list nat) :
  prod_shape s = 0 ->
  np_reshape x ((-1)%Z :: map Z.of_nat s) = Raise ValueError.
Proof.
  intros Hz. unfold np_reshape. simpl.
  rewrite filter_neg_of_nat, filter_nonneg_of_nat, prod_shape_of_nat, Hz.
  reflexivity.
Qed.

Lemma eqb_neq_false (a b : string) : a <> b -> String.eqb a b = false.
Proof. intros H. now apply String.eqb_neq. Qed.

(** ** Decoding an empty buffer *)

Lemma get_dense_empty_buffer (src : DenseNdArrayProto) :
  buffer src = [] ->
  _get_dense_array src =
    Ok (match shape src with
        | [] => None
        | _ :: _ => Some (np_zeros (shape src))
        end).
Proof.
  intros Hb. unfold _get_dense_array. rewrite Hb.
  destruct (shape src); reflexivity.
Qed.




(** C6: an element buffer with no bytes and shape [3,4] decodes, for every
    dtype string, to an array of shape [3,4] whose bytes are all zero, and
    the getter of a numpy record hands that array out; no error is raised. *)
Theorem empty_buffer_3x4_decodes_to_zeros
    (dt : string) (params : gmap string string) :
  _get_dense_array (mk_dense [] [3; 4] dt) = Ok (Some (np_zeros [3; 4])) /\
  nd_shape (np_zeros [3; 4]) = [3; 4] /\
  nd_data (np_zeros [3; 4]) = repeat x00 (12 * 8) /\
  NdArray.value (mk_proto "numpy" params (Dense (mk_dense [] [3; 4] dt)))
  = Ok (Some (NumpyArray (np_zeros [3; 4]))).
Proof. repeat split. Qed.

(** ** The getter on unrecognized tags *)

(** C10: when the sparse arm is populated and the backend tag is none of
    scipy, tensorflow and torch, the getter returns the absent value and does
    not raise. *)
Theorem sparse_unknown_backend_is_absent (p : NdArrayProto) :
  NdArray.is_sparse p = true ->
  cls_name p <> "scipy" ->
  cls_name p <> "tensorflow" ->
  cls_name p <> "torch" ->
  NdArray.value p = Ok None.
Proof.
  intros Hs H1 H2 H3. unfold NdArray.value. rewrite Hs.
  now rewrite !eqb_neq_false by assumption.
Qed.

Lemma sparse_unknown_backend_is_absent_witness :
  NdArray.is_sparse (mk_proto "paddle" ∅ (Sparse default_sparse)) = true /\
  NdArray.value (mk_proto "paddle" ∅ (Sparse default_sparse)) = Ok None.
Proof.
  split; [ reflexivity | ].
  apply (sparse_unknown_backend_is_absent
           (mk_proto "paddle" ∅ (Sparse default_sparse)));
    [ reflexivity | discriminate | discriminate | discriminate ].
Defined.

(** The scipy branch of the getter once the format hint is known not to be
    one of the four it tests for. *)
Lemma value_scipy_unrecognized (p : NdArrayProto) (fmt : string) :
  NdArray.is_sparse p = true ->
  cls_name p = "scipy" ->
  parameters p !! "sparse_format" = Some fmt ->
  fmt <> "bsr" -> fmt <> "csc" -> fmt <> "csr" -> fmt <> "coo" ->
  NdArray.value p =
    (let* (idx, val, shape) := NdArray._get_raw_sparse_array p in
     let* _ := coo_matrix val idx shape in
     Ok None).
Proof.
  intros Hs Hc Hf H1 H2 H3 H4. unfold NdArray.value.
  rewrite Hs, Hc. simpl String.eqb. cbv iota.
  destruct (NdArray._get_raw_sparse_array p) as [[[idx val] shp]|e];
    simpl; [ | reflexivity ].
  destruct (coo_matrix val idx shp) as [x|e]; simpl; [ | reflexivity ].
  unfold parameters_getitem. rewrite Hf. simpl.
  now rewrite !eqb_neq_false by assumption.
Qed.

(** C4 on the record the setter writes for the dok matrix with 5.0 at (0,1)
    and 2.0 at (1,0): the format hint is "dok", the coordinate matrix is
    built, and the getter falls off its chain of format tests and returns
    the absent value instead of the matrix in coordinate order, which is
    what it returns for the same record under the hint "coo". *)
Theorem scipy_dok_format_returns_none :
  parameters (scipy_record "dok") !! "sparse_format" = Some "dok" /\
  NdArray.value (scipy_record "dok") = Ok None /\
  (exists x, NdArray.value (scipy_record "coo") = Ok (Some (ScipySparse x))
             /\ sp_format x = "coo").
Proof.
  split; [ reflexivity | ]. split; [ vm_compute; reflexivity | ].
  eexists. split; [ vm_compute; reflexivity | reflexivity ].
Qed.

(** ** Batch unravel of tensorflow sparse records *)

Lemma unravel_tensorflow_sparse_first
    (np_vstack : ndarray -> ndarray -> result ndarray)
    (np_concatenate_last : list ndarray -> result ndarray)
    (first : NdArrayProto) (rest : list NdArrayProto) :
  NdArray.is_sparse first = true ->
  cls_name first = "tensorflow" ->
  NdArray.unravel np_vstack np_concatenate_last (first :: rest)
  = Raise NotImplementedError.
Proof.
  intros Hs Hc. unfold NdArray.unravel. rewrite Hs, Hc. reflexivity.
Qed.

(** C9: on a non-empty sequence of sparse records tagged tensorflow the batch
    unravel raises NotImplementedError; it yields no value, so there is no
    fallback to decoding the records one by one. *)
Theorem unravel_tensorflow_sparse_not_implemented
    (np_vstack : ndarray -> ndarray -> result ndarray)
    (np_concatenate_last : list ndarray -> result ndarray)
    (protos : list NdArrayProto) :
  protos <> [] ->
  Forall (fun p => NdArray.is_sparse p = true /\ cls_name p = "tensorflow")
         protos ->
  NdArray.unravel np_vstack np_concatenate_last protos
  = Raise NotImplementedError.
Proof.
  intros Hne Hall. destruct protos as [|first rest]; [ congruence | ].
  inversion Hall as [|? ? [Hs Hc] _]; subst.
  now apply unravel_tensorflow_sparse_first.
Qed.

Lemma unravel_tensorflow_sparse_not_implemented_witness :
  [tf_sparse_record; tf_sparse_record] <> [] /\
  NdArray.unravel (fun _ _ => Raise NotImplementedError)
                  (fun _ => Raise NotImplementedError)
                  [tf_sparse_record; tf_sparse_record]
  = Raise NotImplementedError.
Proof.
  split; [ discriminate | ].
  apply (unravel_tensorflow_sparse_not_implemented
           (fun _ _ => Raise NotImplementedError)
           (fun _ => Raise NotImplementedError)
           [tf_sparse_record; tf_sparse_record]);
    [ discriminate | ].
  repeat constructor.
Defined.

(** ** Setting a value from another record *)

Lemma upd_same (s : store) (l : loc) (p : NdArrayProto) : upd s l p l = p.
Proof. unfold upd. now rewrite Nat.eqb_refl. Qed.

Lemma upd_other (s : store) (l l' : loc) (p : NdArrayProto) :
  l <> l' -> upd s l p l' = s l'.
Proof.
  intros H. unfold upd. destruct (Nat.eqb_spec l l'); [ contradiction | easy ].
Qed.

Lemma passthrough_store (s : store) (self src : loc) :
  copied_verbatim s
    (CopyFrom self src (upd s self (set_cls_name "numpy" (s self))))
    self src.
Proof.
  unfold copied_verbatim, CopyFrom.
  destruct (Nat.eqb_spec self src) as [->|Hne].
  - rewrite upd_same. repeat split.
  - rewrite upd_same, !upd_other by exact Hne. repeat split.
    all: now rewrite upd_other by exact Hne.
Qed.

(** C7: setting a record's value from another record, given as an NdArray
    or as its raw message, leaves the record with the populated arm, the
    buffer bytes and the backend tag of the source: the message is copied,
    nothing is encoded again. *)
Theorem passthrough_set_copies_source (s : store) (self src : loc) :
  (exists s', NdArray.value_setter self (JinaNdArray src) s = Ok s' /\
              copied_verbatim s s' self src) /\
  (exists s', NdArray.value_setter self (JinaNdArrayProto src) s = Ok s' /\
              copied_verbatim s s' self src).
Proof.
  split; eexists; (split; [ reflexivity | apply passthrough_store ]).
Qed.

(** ** Dense round trip *)

(** The store after setting a numpy array: the record is tagged numpy and
    its dense arm holds the array's bytes, shape and typestring. *)
Lemma value_setter_numpy (s : store) (self : loc) (v : ndarray) :
  NdArray.value_setter self (NumpyArray v) s =
    Ok (upd s self
          (mk_proto "numpy" (parameters (s self))
             (Dense (mk_dense (nd_data v) (nd_shape v) (nd_dtype v))))).
Proof. reflexivity. Qed.

(** Decoding a buffer that holds at least one byte and exactly the elements
    its shape asks for. *)
Lemma get_dense_well_formed (b : bytes) (s : list nat) (dt : string) (sz : nat) :
  dtype_itemsize dt = Some sz ->
  length b = prod_shape s * sz ->
  b <> [] ->
  _get_dense_array (mk_dense b s dt) = Ok (Some (mk_ndarray dt s b)).
Proof.
  intros Hsz Hlen Hne. unfold _get_dense_array. simpl.
  destruct b as [|x b']; [ congruence | ].
  rewrite (np_frombuffer_whole _ dt sz (prod_shape s) Hsz Hlen). simpl.
  rewrite np_reshape_same_size by reflexivity. reflexivity.
Qed.

(** Decoding what [_set_dense_array] wrote for an array. *)
Lemma get_dense_after_set (v : ndarray) :
  wf_ndarray v ->
  nd_data v <> [] \/ nd_dtype v = float64 ->
  _get_dense_array (mk_dense (nd_data v) (nd_shape v) (nd_dtype v))
  = Ok (Some v).
Proof.
  intros (sz & Hsz & Hlen) Hcase. destruct v as [dt s b]. simpl in *.
  unfold nd_size in Hlen. simpl in Hlen.
  destruct b as [|x b'].
  - destruct Hcase as [Hne | Hdt]; [ congruence | ].
    pose proof (dtype_itemsize_pos _ _ Hsz) as Hpos. simpl in Hlen.
    assert (Hz : prod_shape s = 0) by nia.
    rewrite get_dense_empty_buffer by reflexivity. simpl.
    destruct s as [|d s']; [ discriminate Hz | ].
    unfold np_zeros. rewrite Hz, Hdt. reflexivity.
  - now apply (get_dense_well_formed _ _ _ sz).
Qed.

(** C1, as the code has it: for a numpy array that holds at least one byte
    of data, or whose dtype is float64, setting it as a record's value and
    reading the value back returns an array with the same typestring, the
    same shape and the same bytes. *)
Theorem numpy_set_get_roundtrip (s : store) (self : loc) (v : ndarray) :
  wf_ndarray v ->
  nd_data v <> [] \/ nd_dtype v = float64 ->
  exists s', NdArray.value_setter self (NumpyArray v) s = Ok s' /\
             NdArray.value (s' self) = Ok (Some (NumpyArray v)).
Proof.
  intros Hwf Hcase. eexists. split; [ apply value_setter_numpy | ].
  rewrite upd_same. unfold NdArray.value. cbn -[_get_dense_array].
  rewrite (get_dense_after_set v Hwf Hcase). reflexivity.
Qed.

Lemma numpy_set_get_roundtrip_witness :
  wf_ndarray matrix_2x2_f4 /\
  exists s', NdArray.value_setter 0 (NumpyArray matrix_2x2_f4) fresh_store
             = Ok s' /\
             NdArray.value (s' 0) = Ok (Some (NumpyArray matrix_2x2_f4)).
Proof.
  assert (Hwf : wf_ndarray matrix_2x2_f4)
    by (exists 4; split; reflexivity).
  split; [ exact Hwf | ].
  apply (numpy_set_get_roundtrip fresh_store 0 matrix_2x2_f4 Hwf).
  left. discriminate.
Defined.

(** C1 as stated fails: an empty float32 array is written with an empty
    buffer, and is read back as an empty float64 array. *)
Lemma numpy_empty_float32_read_back_as_float64 :
  wf_ndarray empty_f4 /\
  exists s', NdArray.value_setter 0 (NumpyArray empty_f4) fresh_store = Ok s' /\
             NdArray.value (s' 0)
             = Ok (Some (NumpyArray (mk_ndarray "<f8" [0] []))) /\
             NdArray.value (s' 0) <> Ok (Some (NumpyArray empty_f4)).
Proof.
  split; [ exists 4; split; reflexivity | ].
  eexists. split; [ apply value_setter_numpy | ].
  rewrite upd_same. split; [ reflexivity | discriminate ].
Qed.

(** ** Sparse encode *)

Lemma get_array_type_scipy (m : spmatrix) :
  _get_array_type (ScipySparse m) = Ok ("scipy", true).
Proof. reflexivity. Qed.





(** ** Batch unravel of dense records *)

Lemma concat_blocks_length (w : nat) (l : list bytes) :
  Forall (fun b => length b = w) l ->
  length (concat l) = length l * w.
Proof.
  induction 1 as [|b l Hb _ IH]; simpl; [ reflexivity | ].
  rewrite length_app, IH, Hb. reflexivity.
Qed.

(** The k-th block of a concatenation of blocks of one width. *)
Lemma concat_blocks_nth (w : nat) (l : list bytes) (k : nat) (b : bytes) :
  Forall (fun b => length b = w) l ->
  nth_error l k = Some b ->
  firstn w (skipn (k * w) (concat l)) = b.
Proof.
  intros Hall. revert k. induction Hall as [|b0 l Hb0 _ IH]; intros k Hk.
  - destruct k; discriminate.
  - destruct k as [|k]; simpl in *.
    + injection Hk as ->. rewrite skipn_O.
      rewrite firstn_app, Hb0, Nat.sub_diag, firstn_O, app_nil_r.
      rewrite <- Hb0. apply firstn_all.
    + rewrite skipn_app, Hb0.
      rewrite skipn_all2 by lia.
      replace (w + k * w - w) with (k * w) by lia.
      simpl. now apply IH.
Qed.

Lemma dense_framework_cases (fw : string) :
  dense_framework fw = true ->
  fw = "numpy" \/ fw = "torch" \/ fw = "paddle" \/ fw = "tensorflow".
Proof.
  unfold dense_framework, mem. simpl.
  destruct (String.eqb_spec fw "numpy"); [ tauto | ].
  destruct (String.eqb_spec fw "torch"); [ tauto | ].
  destruct (String.eqb_spec fw "paddle"); [ tauto | ].
  destruct (String.eqb_spec fw "tensorflow"); [ tauto | ].
  discriminate.
Qed.


(** The bound on the shape is sharp: next to a dimension of size zero the
    reshape of the fast path raises, whatever the buffers hold. *)
Lemma unravel_dense_array_zero_volume
    (bufs : list bytes) (S : list nat) (dt : string) :
  prod_shape S = 0 ->
  is_ok (_unravel_dense_array bufs S dt) = false.
Proof.
  intros Hz. unfold _unravel_dense_array.
  destruct (np_frombuffer (concat bufs) dt) as [x|e]; simpl; [ | reflexivity ].
  now rewrite np_reshape_infer_zero.
Qed.








(** ** Batch unravel of scipy records *)

(** C3 on the batch of the two rows above: the unravel returns a 2x8 matrix
    in compressed-row format whose row 0 holds 5.0 at column 0, while record
    0 has it at column 3.  The columns handed to scipy are the second half of
    the concatenated (row, col) pairs, not their second components. *)
Theorem unravel_scipy_misplaces_columns :
  exists m,
    NdArray.unravel no_vstack no_concatenate [scipy_row_a; scipy_row_b]
    = Ok (Some (ScipySparse m)) /\
    sp_format m = "csr" /\
    sp_shape m = [2; 8] /\
    nd_data (sp_col m) = [x00; x00; x00; x00;  x05; x00; x00; x00] /\
    row_entries m 0 = [([x00; x00; x00; x00], [x00; x00; xa0; x40])] /\
    spec_row_entries scipy_row_a
    = Ok [([x03; x00; x00; x00], [x00; x00; xa0; x40])] /\
    Ok (row_entries m 0) <> spec_row_entries scipy_row_a.
Proof.
  eexists. split; [ vm_compute; reflexivity | ].
  repeat split; try reflexivity. vm_compute. discriminate.
Qed.

(** * Further properties of the module *)

(** ** Dense decode, in full *)

Lemma np_reshape_of_nat (x : ndarray) (s : list nat) :
  np_reshape x (map Z.of_nat s) =
    if Nat.eqb (nd_size x) (prod_shape s)
    then Ok (mk_ndarray (nd_dtype x) s (nd_data x))
    else Raise ValueError.
Proof.
  unfold np_reshape.
  rewrite filter_neg_of_nat, filter_nonneg_of_nat, prod_shape_of_nat.
  rewrite to_nat_of_nat.
  destruct (Nat.eqb_spec (nd_size x) (prod_shape s)) as [E|E].
  - rewrite E, Z.eqb_refl. reflexivity.
  - destruct (Z.eqb_spec (Z.of_nat (nd_size x)) (Z.of_nat (prod_shape s)));
      [ lia | reflexivity ].
Qed.

(** What [_get_dense_array] does with a buffer that holds at least one byte:
    an unknown dtype string is a TypeError, a byte count other than the one
    the shape asks for is a ValueError, and otherwise the bytes come back
    under the stored dtype and shape. *)
Lemma get_dense_nonempty_spec (src : DenseNdArrayProto) :
  buffer src <> [] ->
  _get_dense_array src =
    match dtype_itemsize (dtype src) with
    | None => Raise TypeError
    | Some sz =>
        if Nat.eqb (length (buffer src)) (prod_shape (shape src) * sz)
        then Ok (Some (mk_ndarray (dtype src) (shape src) (buffer src)))
        else Raise ValueError
    end.
Proof.
  intros Hne. unfold _get_dense_array.
  destruct (buffer src) as [|b0 bs] eqn:Hb; [ congruence | ].
  rewrite <- Hb. clear Hne.
  unfold np_frombuffer.
  destruct (dtype_itemsize (dtype src)) as [sz|] eqn:Hsz; [ | reflexivity ].
  pose proof (dtype_itemsize_pos _ _ Hsz) as Hpos.
  set (len := length (buffer src)).
  destruct (Nat.eqb_spec (len mod sz) 0) as [Hm|Hm]; simpl.
  - rewrite np_reshape_of_nat. unfold nd_size. simpl.
    rewrite Nat.mul_1_r.
    assert (Hlen : len = sz * (len / sz))
      by (apply Nat.Div0.div_exact; exact Hm).
    destruct (Nat.eqb_spec (len / sz) (prod_shape (shape src))) as [E|E];
      destruct (Nat.eqb_spec len (prod_shape (shape src) * sz)) as [F|F];
      simpl; try reflexivity.
    + exfalso. apply F. rewrite <- E. lia.
    + exfalso. apply E. rewrite F. apply Nat.div_mul. lia.
  - destruct (Nat.eqb_spec len (prod_shape (shape src) * sz)) as [F|F];
      [ | reflexivity ].
    exfalso. apply Hm. rewrite F. apply Nat.Div0.mod_mul.
Qed.

(** X1: a buffer that holds at least one byte but not exactly the bytes its
    shape and dtype ask for is rejected with a ValueError; nothing is
    truncated or padded. *)
Theorem get_dense_size_mismatch_raises
    (src : DenseNdArrayProto) (sz : nat) :
  buffer src <> [] ->
  dtype_itemsize (dtype src) = Some sz ->
  length (buffer src) <> prod_shape (shape src) * sz ->
  _get_dense_array src = Raise ValueError.
Proof.
  intros Hne Hsz Hlen. rewrite (get_dense_nonempty_spec src Hne), Hsz.
  destruct (Nat.eqb_spec (length (buffer src)) (prod_shape (shape src) * sz));
    [ contradiction | reflexivity ].
Qed.

Lemma get_dense_size_mismatch_raises_witness :
  _get_dense_array (mk_dense [x00; x00; x80; x3f] [3; 4] "<f4")
  = Raise ValueError.
Proof.
  apply (get_dense_size_mismatch_raises
           (mk_dense [x00; x00; x80; x3f] [3; 4] "<f4") 4);
    [ discriminate | reflexivity | simpl; lia ].
Defined.

(** X2: every array that [_get_dense_array] returns has the stored shape and
    is well formed: a known element size and exactly the bytes the shape
    asks for.  With a non-empty buffer it holds the stored bytes unchanged
    under an element type of the width the stored dtype string names, and
    under that very string when it is in numpy's canonical spelling. *)
Theorem get_dense_result_well_formed
    (src : DenseNdArrayProto) (x : ndarray) :
  _get_dense_array src = Ok (Some x) ->
  wf_ndarray x /\
  nd_shape x = shape src /\
  (buffer src <> [] ->
   nd_data x = buffer src /\
   dtype_itemsize (nd_dtype x) = dtype_itemsize (dtype src) /\
   (canonical_typestr (dtype src) = true -> nd_dtype x = dtype src)).
Proof.
  intros H. destruct (buffer src) as [|b0 bs] eqn:Hb.
  - rewrite (get_dense_empty_buffer src Hb) in H.
    destruct (shape src) as [|d s] eqn:Hs; [ discriminate | ].
    injection H as <-. split; [ | split; [ reflexivity | congruence ] ].
    exists 8. split; [ reflexivity | ].
    unfold np_zeros, nd_size. simpl nd_data. simpl nd_shape.
    apply repeat_length.
  - assert (Hne : buffer src <> []) by (rewrite Hb; discriminate).
    rewrite (get_dense_nonempty_spec src Hne) in H.
    destruct (dtype_itemsize (dtype src)) as [sz|] eqn:Hsz; [ | discriminate ].
    destruct (Nat.eqb_spec (length (buffer src))
                (prod_shape (shape src) * sz)) as [E|E]; [ | discriminate ].
    injection H as <-. simpl. split; [ | split; [ reflexivity | ] ].
    + exists sz. split; [ exact Hsz | exact E ].
    + intros _. rewrite Hb. repeat split. exact Hsz.
Qed.

Lemma get_dense_result_well_formed_witness :
  wf_ndarray matrix_2x2_f4 /\ nd_shape matrix_2x2_f4 = [2; 2].
Proof.
  pose proof (get_dense_result_well_formed
                (mk_dense (nd_data matrix_2x2_f4) [2; 2] "<f4")
                matrix_2x2_f4 eq_refl) as (Hwf & Hs & _).
  split; [ exact Hwf | exact Hs ].
Defined.

(** ** Type detection and the encoding branches of the setter *)

(** The pairs [_get_array_type] can return. *)
Lemma get_array_type_pairs (v : PyValue) (fw : string) (sp : bool) :
  _get_array_type v = Ok (fw, sp) ->
  In (fw, sp)
     [("numpy", false); ("jina", false); ("jina_proto", false);
      ("tensorflow", true); ("tensorflow", false);
      ("torch", true); ("torch", false);
      ("paddle", false); ("scipy", true)].
Proof.
  unfold _get_array_type.
  repeat match goal with
         | |- context [if ?c then _ else _] => destruct c
         end;
    try (intros [= <- <-]; simpl; tauto); try discriminate.
  destruct (py_is_sparse v) as [[|]|e]; simpl;
    try (intros [= <- <-]; simpl; tauto); discriminate.
Qed.

(** X3: the detector answers with one of seven tags, and the sparse flag is
    fixed by the tag except for torch: scipy values are always sparse;
    numpy, paddle and pass-through values never are. *)
Theorem get_array_type_invariants (v : PyValue) (fw : string) (sp : bool) :
  _get_array_type v = Ok (fw, sp) ->
  In fw ["numpy"; "jina"; "jina_proto"; "tensorflow"; "torch"; "paddle";
         "scipy"] /\
  (fw = "scipy" -> sp = true) /\
  (fw = "numpy" \/ fw = "paddle" \/ fw = "jina" \/ fw = "jina_proto" ->
   sp = false).
Proof.
  intros H. apply get_array_type_pairs in H. simpl in H.
  repeat (destruct H as [[= <- <-] | H]; [ repeat split; simpl; try tauto;
            intros; repeat match goal with
                           | H : _ \/ _ |- _ => destruct H
                           end; congruence | ]).
  contradiction.
Qed.

Lemma get_array_type_invariants_witness :
  In "torch" ["numpy"; "jina"; "jina_proto"; "tensorflow"; "torch"; "paddle";
              "scipy"].
Proof.
  exact (proj1 (get_array_type_invariants torch_sparse_2x3 "torch" true
                  eq_refl)).
Defined.

(** The encoding branches on a message: on success the message carries the
    detected tag and the arm that goes with the sparse flag. *)
Lemma set_framework_value_tag_arm
    (v : PyValue) (fw : string) (sp : bool) (p p' : NdArrayProto) :
  _get_array_type v = Ok (fw, sp) ->
  fw <> "jina" -> fw <> "jina_proto" ->
  NdArray.set_framework_value fw sp v p = Ok p' ->
  cls_name p' = fw /\
  WhichOneof p' = Some (if sp then "sparse" else "dense").
Proof.
  intros Hty Hj Hjp Hset.
  pose proof (get_array_type_pairs v fw sp Hty) as Hin. simpl in Hin.
  repeat (destruct Hin as [[= <- <-] | Hin]); try contradiction;
    try congruence.
  all: destruct v as [x| | |x|idx val ds|x|idx val sz|x|m|tags name];
    simpl in Hset; try discriminate Hset;
    try (injection Hset as <-; split; reflexivity).
  all: try (revert Hset; unfold NdArray._set_scipy_sparse;
            destruct (np_stack_axis1 (sp_row m) (sp_col m)); simpl;
            [ intros [= <-]; split; reflexivity | discriminate ]).
Qed.

Lemma value_setter_framework
    (s s' : store) (self : loc) (v : PyValue) (fw : string) (sp : bool) :
  _get_array_type v = Ok (fw, sp) ->
  fw <> "jina" -> fw <> "jina_proto" ->
  NdArray.value_setter self v s = Ok s' ->
  exists p', NdArray.set_framework_value fw sp v (s self) = Ok p' /\
             s' = upd s self p'.
Proof.
  intros Hty Hj Hjp. unfold NdArray.value_setter. rewrite Hty. simpl.
  rewrite !eqb_neq_false by assumption.
  destruct (NdArray.set_framework_value fw sp v (s self)) as [p'|e]; simpl;
    [ intros [= <-]; eauto | discriminate ].
Qed.

(** X4: when the setter encodes a framework value, the record ends up
    tagged with the detected framework and with exactly the matching arm
    populated: sparse for a sparse value, dense otherwise, whatever arm was
    populated before. *)
Theorem setter_tags_record_and_selects_arm
    (s s' : store) (self : loc) (v : PyValue) (fw : string) (sp : bool) :
  _get_array_type v = Ok (fw, sp) ->
  fw <> "jina" -> fw <> "jina_proto" ->
  NdArray.value_setter self v s = Ok s' ->
  cls_name (s' self) = fw /\
  NdArray.is_sparse (s' self) = sp /\
  WhichOneof (s' self) = Some (if sp then "sparse" else "dense").
Proof.
  intros Hty Hj Hjp Hset.
  destruct (value_setter_framework _ _ _ _ _ _ Hty Hj Hjp Hset)
    as (p' & Hp' & ->).
  rewrite upd_same.
  destruct (set_framework_value_tag_arm _ _ _ _ _ Hty Hj Hjp Hp')
    as [Hc Hw].
  split; [ exact Hc | ]. split; [ | exact Hw ].
  unfold NdArray.is_sparse. rewrite Hw. destruct sp; reflexivity.
Qed.

Lemma setter_tags_record_and_selects_arm_witness :
  exists s', NdArray.value_setter 0 torch_sparse_2x3
               (upd fresh_store 0 pair_record_a) = Ok s' /\
             cls_name (s' 0) = "torch" /\
             NdArray.is_sparse (s' 0) = true.
Proof.
  eexists. split; [ reflexivity | ].
  pose proof (setter_tags_record_and_selects_arm
                (upd fresh_store 0 pair_record_a) _ 0 torch_sparse_2x3
                "torch" true eq_refl ltac:(discriminate) ltac:(discriminate)
                eq_refl) as (Hc & Hs & _).
  split; [ exact Hc | exact Hs ].
Defined.

(** X5: the setter writes to the record it is called on and to no other
    message: in particular the source of a pass-through set is left as it
    was when it is a different object. *)
Theorem setter_touches_only_self
    (s s' : store) (self : loc) (v : PyValue) (l : loc) :
  NdArray.value_setter self v s = Ok s' ->
  l <> self ->
  s' l = s l.
Proof.
  intros Hset Hl. unfold NdArray.value_setter in Hset.
  destruct (_get_array_type v) as [[fw sp]|e]; simpl in Hset;
    [ | discriminate ].
  assert (Hcopy : forall src,
            CopyFrom self src (upd s self (set_cls_name "numpy" (s self))) l
            = s l).
  { intros src. unfold CopyFrom.
    destruct (Nat.eqb self src); rewrite !upd_other by congruence;
      reflexivity. }
  destruct (String.eqb fw "jina").
  - destruct (py_pb_body v) as [src|e]; simpl in Hset; [ | discriminate ].
    injection Hset as <-. apply Hcopy.
  - destruct (String.eqb fw "jina_proto").
    + destruct (py_proto v) as [src|e]; simpl in Hset; [ | discriminate ].
      injection Hset as <-. apply Hcopy.
    + destruct (NdArray.set_framework_value fw sp v (s self)) as [p'|e];
        simpl in Hset; [ | discriminate ].
      injection Hset as <-. apply upd_other. congruence.
Qed.

Lemma setter_touches_only_self_witness :
  exists s', NdArray.value_setter 0 (JinaNdArray 1)
               (upd fresh_store 1 pair_record_a) = Ok s' /\
             s' 1 = pair_record_a.
Proof.
  eexists. split; [ reflexivity | ].
  exact (setter_touches_only_self
           (upd fresh_store 1 pair_record_a) _ 0 (JinaNdArray 1) 1
           eq_refl ltac:(discriminate)).
Defined.

(** X6: encoding a framework value keeps the record's parameters, except
    that a scipy matrix records its format under "sparse_format"; a format
    recorded by an earlier set is therefore still there after a value of
    another framework is set. *)
Theorem setter_parameters
    (s s' : store) (self : loc) (v : PyValue) (fw : string) (sp : bool) :
  _get_array_type v = Ok (fw, sp) ->
  fw <> "jina" -> fw <> "jina_proto" ->
  NdArray.value_setter self v s = Ok s' ->
  parameters (s' self) = parameters_after_set v (parameters (s self)).
Proof.
  intros Hty Hj Hjp Hset.
  destruct (value_setter_framework _ _ _ _ _ _ Hty Hj Hjp Hset)
    as (p' & Hp' & ->).
  rewrite upd_same.
  pose proof (get_array_type_pairs v fw sp Hty) as Hin. simpl in Hin.
  repeat (destruct Hin as [[= <- <-] | Hin]); try contradiction;
    try congruence.
  all: destruct v as [x| | |x|idx val ds|x|idx val sz|x|m|tags name];
    simpl in Hp'; try discriminate Hp';
    try (injection Hp' as <-; reflexivity).
  all: try (revert Hp'; unfold NdArray._set_scipy_sparse;
            destruct (np_stack_axis1 (sp_row m) (sp_col m)); simpl;
            [ intros [= <-]; reflexivity | discriminate ]).
Qed.

Lemma setter_parameters_witness :
  exists s', NdArray.value_setter 0 (NumpyArray matrix_2x2_f4)
               (upd fresh_store 0 (scipy_record "csr")) = Ok s' /\
             parameters (s' 0) !! "sparse_format" = Some "csr".
Proof.
  eexists. split; [ reflexivity | ].
  rewrite (setter_parameters
             (upd fresh_store 0 (scipy_record "csr")) _ 0
             (NumpyArray matrix_2x2_f4) "numpy" false eq_refl
             ltac:(discriminate) ltac:(discriminate) eq_refl).
  reflexivity.
Defined.

(** ** Round trips of the other framework values *)

(** [_set_dense_array] replaces all three fields of its target. *)
Lemma set_dense_array_overwrites (v : ndarray) (t : DenseNdArrayProto) :
  _set_dense_array v t = mk_dense (nd_data v) (nd_shape v) (nd_dtype v).
Proof. reflexivity. Qed.

(** X7: for a dense numpy, tensorflow, torch or paddle value over an array
    of a boolean, integer, floating or complex element type that the
    framework holds (any such type for numpy; native byte order and no
    unsigned type wider than a byte for the three tensor frameworks),
    holding at least one byte, setting it and reading the value back
    returns the tensor of the same framework over the same array. *)
Theorem dense_framework_roundtrip
    (s : store) (self : loc) (v : PyValue) (x : ndarray) (fw : string) :
  _get_array_type v = Ok (fw, false) ->
  py_numpy v = Ok x ->
  framework_holds fw (nd_dtype x) = true ->
  wf_ndarray x ->
  nd_data x <> [] ->
  exists s', NdArray.value_setter self v s = Ok s' /\
             NdArray.value (s' self) = Ok (Some v).
Proof.
  intros _ Hv _ Hwf Hne.
  assert (Hdec : _get_dense_array
                   (mk_dense (nd_data x) (nd_shape x) (nd_dtype x))
                 = Ok (Some x))
    by (apply get_dense_after_set; [ exact Hwf | left; exact Hne ]).
  destruct v as [y| | |y|idx val ds|y|idx val sz|y|m|tags name];
    simpl in Hv; try discriminate Hv; injection Hv as ->.
  all: eexists; split; [ reflexivity | ].
  all: rewrite upd_same; unfold NdArray.value;
    cbn -[_get_dense_array _set_dense_array].
  all: rewrite set_dense_array_overwrites, Hdec; reflexivity.
Qed.

Lemma dense_framework_roundtrip_witness :
  exists s', NdArray.value_setter 0 (TorchTensor matrix_2x2_f4) fresh_store
             = Ok s' /\
             NdArray.value (s' 0) = Ok (Some (TorchTensor matrix_2x2_f4)).
Proof.
  apply (dense_framework_roundtrip fresh_store 0
           (TorchTensor matrix_2x2_f4) matrix_2x2_f4 "torch"
           eq_refl eq_refl eq_refl).
  - exists 4. split; reflexivity.
  - discriminate.
Defined.



(** X9: after a record's value is set from a different record, the getter
    of the record returns what the getter of the source returns. *)
Theorem passthrough_then_get
    (s s' : store) (self src : loc) (v : PyValue) :
  v = JinaNdArray src \/ v = JinaNdArrayProto src ->
  self <> src ->
  NdArray.value_setter self v s = Ok s' ->
  NdArray.value (s' self) = NdArray.value (s src) /\ s' src = s src.
Proof.
  intros Hv Hne Hset.
  assert (Hs' : s' = CopyFrom self src
                       (upd s self (set_cls_name "numpy" (s self))))
    by (destruct Hv as [-> | ->];
        change (Ok (CopyFrom self src
                      (upd s self (set_cls_name "numpy" (s self))))
                = Ok s') in Hset;
        congruence).
  destruct (passthrough_store s self src) as (Heq & _ & _ & Hself).
  rewrite <- Hs' in Heq, Hself.
  destruct (Nat.eqb_spec self src); [ contradiction | ].
  rewrite <- Heq, Hself. split; reflexivity.
Qed.

Lemma passthrough_then_get_witness :
  exists s', NdArray.value_setter 0 (JinaNdArray 1)
               (upd fresh_store 1 pair_record_a) = Ok s' /\
             NdArray.value (s' 0) = NdArray.value pair_record_a.
Proof.
  eexists. split; [ reflexivity | ].
  exact (proj1 (passthrough_then_get
                  (upd fresh_store 1 pair_record_a) _ 0 1 (JinaNdArray 1)
                  (or_introl eq_refl) ltac:(discriminate) eq_refl)).
Defined.

(** ** Stacking coordinates and taking them apart *)

Lemma nth_error_seq_lt (s n r : nat) :
  r < n -> nth_error (seq s n) r = Some (s + r).
Proof.
  revert s r. induction n as [|n IH]; intros s r Hr; [ lia | ].
  destruct r as [|r]; simpl.
  - f_equal. lia.
  - rewrite IH by lia. f_equal. lia.
Qed.

Lemma flat_map_ext_seq {A} (f g : nat -> list A) (n : nat) :
  (forall r, r < n -> f r = g r) ->
  flat_map f (seq 0 n) = flat_map g (seq 0 n).
Proof.
  intros H. rewrite !flat_map_concat_map. f_equal.
  apply map_ext_in. intros r Hr. apply H. apply in_seq in Hr. lia.
Qed.

(** Cutting a byte string into [n] pieces of [sz] bytes and gluing them
    back. *)
Lemma flat_map_pieces (sz n : nat) (A : bytes) :
  length A = n * sz ->
  flat_map (fun r => firstn sz (skipn (r * sz) A)) (seq 0 n) = A.
Proof.
  revert A. induction n as [|n IH]; intros A Hlen.
  - destruct A; [ reflexivity | discriminate ].
  - simpl seq. simpl flat_map. rewrite skipn_O.
    rewrite <- seq_shift, flat_map_concat_map, map_map,
            <- flat_map_concat_map.
    rewrite (flat_map_ext _ (fun r => firstn sz (skipn (r * sz) (skipn sz A)))).
    + rewrite IH by (rewrite length_skipn; lia). apply firstn_skipn.
    + intros r. rewrite skipn_skipn. f_equal. f_equal. lia.
Qed.

Lemma piece_length (sz n r : nat) (A : bytes) :
  length A = n * sz -> r < n ->
  length (firstn sz (skipn (r * sz) A)) = sz.
Proof.
  intros Hlen Hr. rewrite length_firstn, length_skipn. nia.
Qed.

Lemma concat_pair_blocks {A} (f g : nat -> list A) (l : list nat) :
  concat (flat_map (fun r => [f r; g r]) l)
  = flat_map (fun r => f r ++ g r) l.
Proof.
  induction l as [|r l IH]; simpl; [ reflexivity | ].
  now rewrite IH, app_assoc.
Qed.

Lemma nth_error_pair_blocks {A} (f g : nat -> list A) (l : list nat)
    (j r : nat) :
  nth_error l j = Some r ->
  nth_error (flat_map (fun r => [f r; g r]) l) (j * 2) = Some (f r) /\
  nth_error (flat_map (fun r => [f r; g r]) l) (j * 2 + 1) = Some (g r).
Proof.
  revert j. induction l as [|r0 l IH]; intros j Hj.
  - destruct j; discriminate.
  - destruct j as [|j]; simpl in *.
    + injection Hj as ->. split; reflexivity.
    + apply IH. exact Hj.
Qed.

Lemma length_pair_blocks {A} (f g : nat -> list A) (l : list nat) :
  length (flat_map (fun r => [f r; g r]) l) = 2 * length l.
Proof. induction l as [|r l IH]; simpl; [ reflexivity | ]. rewrite IH. lia. Qed.

Lemma Forall_pair_blocks {A} (P : list A -> Prop) (f g : nat -> list A)
    (n : nat) :
  (forall r, r < n -> P (f r) /\ P (g r)) ->
  Forall P (flat_map (fun r => [f r; g r]) (seq 0 n)).
Proof.
  intros H. apply List.Forall_forall. intros x Hx.
  apply in_flat_map in Hx. destruct Hx as (r & Hr & Hx).
  apply in_seq in Hr. destruct (H r) as [Hf Hg]; [ lia | ].
  destruct Hx as [<- | [<- | []]]; assumption.
Qed.

(** The two columns of what [np.stack([a, b], axis=1)] produced are [a] and
    [b] again. *)
Lemma columns_of_stack (dt : string) (sz n : nat) (A B : bytes) :
  dtype_itemsize dt = Some sz ->
  length A = n * sz -> length B = n * sz ->
  let a := mk_ndarray dt [n] A in
  let b := mk_ndarray dt [n] B in
  let i := mk_ndarray dt [n; 2]
             (flat_map (fun r => nd_item a r ++ nd_item b r) (seq 0 n)) in
  np_column i 2 0 = a /\ np_column i 2 1 = b /\
  length (nd_data i) = n * 2 * sz.
Proof.
  intros Hsz HA HB a b i.
  set (fa := fun r => firstn sz (skipn (r * sz) A)).
  set (fb := fun r => firstn sz (skipn (r * sz) B)).
  set (L := flat_map (fun r => [fa r; fb r]) (seq 0 n)).
  assert (HD : nd_data i = concat L).
  { subst i L. simpl. rewrite concat_pair_blocks.
    unfold nd_item. simpl. rewrite Hsz. reflexivity. }
  assert (HL : Forall (fun blk => length blk = sz) L).
  { apply Forall_pair_blocks. intros r Hr. subst fa fb. simpl.
    split; eapply piece_length; eassumption. }
  assert (Hitem : forall r, r < n ->
            nd_item i (r * 2 + 0) = fa r /\ nd_item i (r * 2 + 1) = fb r).
  { intros r Hr. unfold nd_item. rewrite HD.
    change (nd_dtype i) with dt. rewrite Hsz.
    destruct (nth_error_pair_blocks fa fb (seq 0 n) r r) as [H0 H1].
    { rewrite nth_error_seq_lt by exact Hr. reflexivity. }
    rewrite Nat.add_0_r. fold L in H0, H1. split.
    - exact (concat_blocks_nth sz L _ _ HL H0).
    - exact (concat_blocks_nth sz L _ _ HL H1). }
  unfold np_column. change (hd 0 (nd_shape i)) with n.
  change (nd_dtype i) with dt. repeat split.
  - subst a. f_equal.
    rewrite (flat_map_ext_seq _ fa) by (intros r Hr; apply (Hitem r Hr)).
    apply flat_map_pieces. exact HA.
  - subst b. f_equal.
    rewrite (flat_map_ext_seq _ fb) by (intros r Hr; apply (Hitem r Hr)).
    apply flat_map_pieces. exact HB.
  - rewrite HD, (concat_blocks_length sz L HL). subst L.
    etransitivity;
      [ apply (f_equal (fun k => k * sz));
        exact (length_pair_blocks fa fb (seq 0 n))
      | rewrite length_seq; lia ].
Qed.

(** ** When the getter returns nothing *)

Lemma get_dense_none (src : DenseNdArrayProto) :
  _get_dense_array src = Ok None -> buffer src = [] /\ shape src = [].
Proof.
  unfold _get_dense_array.
  destruct (buffer src) as [|b0 bs].
  - destruct (shape src); [ tauto | discriminate ].
  - destruct (np_frombuffer (b0 :: bs) (dtype src)) as [x|e]; simpl;
      [ | discriminate ].
    destruct (np_reshape x (map Z.of_nat (shape src))); simpl; discriminate.
Qed.

(** X12: on a record that is not a scipy sparse record, the getter returns
    the absent value in exactly three situations: a sparse record tagged
    with none of scipy, tensorflow and torch; a record that is not sparse
    and whose tag is none of numpy, torch, paddle and tensorflow; and a
    numpy record that is not sparse and has neither buffer bytes nor a
    shape. *)
Theorem value_absent_iff (p : NdArrayProto) :
  NdArray.is_sparse p = false \/ cls_name p <> "scipy" ->
  (NdArray.value p = Ok None <-> value_absent_cases p).
Proof.
  intros Hscope. unfold value_absent_cases. split.
  - intros H. unfold NdArray.value in H.
    destruct (NdArray.is_sparse p) eqn:Hs.
    + destruct Hscope as [Hscope | Hc]; [ discriminate | ].
      rewrite (eqb_neq_false _ _ Hc) in H.
      destruct (String.eqb_spec (cls_name p) "tensorflow") as [Ht|Ht].
      { destruct (NdArray._get_raw_sparse_array p) as [[[idx val] shp]|e];
          simpl in H; [ | discriminate ].
        destruct (SparseTensor idx val shp); simpl in H; discriminate. }
      destruct (String.eqb_spec (cls_name p) "torch") as [Hto|Hto].
      { destruct (NdArray._get_raw_sparse_array p) as [[[idx val] shp]|e];
          simpl in H; [ | discriminate ].
        destruct (sparse_coo_tensor idx val shp); simpl in H;
          discriminate. }
      left. repeat split; assumption.
    + destruct (dense_framework (cls_name p)) eqn:Hd.
      * right. right.
        destruct (_get_dense_array (dense_of p)) as [[x|]|e] eqn:Hg;
          simpl in H; try discriminate.
        { destruct (dense_framework_cases _ Hd) as [E | [E | [E | E]]];
            rewrite E in H; simpl in H; discriminate. }
        destruct (get_dense_none _ Hg) as [Hb Hsh].
        destruct (dense_framework_cases _ Hd) as [E | [E | [E | E]]];
          rewrite E in H; simpl in H; try discriminate.
        repeat split; assumption.
      * right. left. split; reflexivity.
  - intros [(Hs & H0 & H1 & H2) | [(Hs & Hd) | Hn]].
    + unfold NdArray.value. rewrite Hs.
      now rewrite !eqb_neq_false by assumption.
    + unfold NdArray.value. now rewrite Hs, Hd.
    + destruct Hn as (Hs & Hc & Hb & Hsh).
      unfold NdArray.value. rewrite Hs, Hc. simpl.
      rewrite (get_dense_empty_buffer _ Hb), Hsh. reflexivity.
Qed.

Lemma value_absent_iff_witness :
  NdArray.value (fresh_store 0) = Ok None <->
  value_absent_cases (fresh_store 0).
Proof.
  apply (value_absent_iff (fresh_store 0)). left. reflexivity.
Defined.

(** ** The leading axis of a dense batch *)




(** ** Arrays without elements *)



(** ** Scipy formats the getter does not test for *)

(** The record the setter writes for a scipy matrix, and what its parts
    decode to. *)
Lemma scipy_set_record
    (s : store) (self : loc) (m : spmatrix) (n rows cols : nat) :
  sp_shape m = [rows; cols] ->
  0 < n ->
  wf_ndarray (sp_row m) -> nd_shape (sp_row m) = [n] ->
  wf_ndarray (sp_col m) -> nd_shape (sp_col m) = [n] ->
  nd_dtype (sp_row m) = nd_dtype (sp_col m) ->
  wf_ndarray (sp_data m) -> nd_shape (sp_data m) = [n] ->
  exists P idx,
    NdArray.value_setter self (ScipySparse m) s = Ok (upd s self P) /\
    NdArray.is_sparse P = true /\ cls_name P = "scipy" /\
    parameters P !! "sparse_format" = Some (sp_format m) /\
    NdArray._get_raw_sparse_array P
    = Ok (Some idx, Some (sp_data m), [rows; cols]) /\
    coo_matrix (Some (sp_data m)) (Some idx) [rows; cols]
    = Ok (mk_spmatrix "coo" (sp_data m) (sp_row m) (sp_col m) [rows; cols]).
Proof.
  intros Hshape Hn Hwr Hsr Hwc Hsc Hdt Hwd Hsd.
  destruct m as [fmt data [dt sr A] [dtc sc B] shp]. simpl in *.
  subst sr sc dtc shp.
  destruct Hwr as (sz & Hsz & HA). destruct Hwc as (sz' & Hsz' & HB).
  unfold nd_size in HA, HB. simpl in *.
  assert (sz' = sz) by congruence. subst sz'.
  rewrite Nat.mul_1_r in HA, HB.
  pose proof (dtype_itemsize_pos _ _ Hsz) as Hpos.
  destruct (columns_of_stack dt sz n A B Hsz HA HB) as (Hc0 & Hc1 & HlenD).
  set (a := mk_ndarray dt [n] A) in *. set (b := mk_ndarray dt [n] B) in *.
  set (D := flat_map (fun r => nd_item a r ++ nd_item b r) (seq 0 n)) in *.
  set (i := mk_ndarray dt [n; 2] D) in *.
  set (P := mk_proto "scipy"
              (<["sparse_format" := fmt]> (parameters (s self)))
              (Sparse (mk_sparse (mk_dense D [n; 2] dt)
                         (mk_dense (nd_data data) [n] (nd_dtype data))
                         [rows; cols]))).
  exists P, i.
  assert (Hi : _get_dense_array (mk_dense D [n; 2] dt) = Ok (Some i)).
  { apply (get_dense_well_formed D [n; 2] dt sz Hsz).
    - simpl. simpl in HlenD. lia.
    - intros HD0. simpl in HlenD. rewrite HD0 in HlenD. simpl in HlenD. nia. }
  assert (Hv : _get_dense_array
                 (mk_dense (nd_data data) [n] (nd_dtype data))
               = Ok (Some data)).
  { rewrite <- Hsd. apply get_dense_after_set; [ exact Hwd | left ].
    destruct Hwd as (szd & Hszd & Hlen).
    pose proof (dtype_itemsize_pos _ _ Hszd).
    unfold nd_size in Hlen. rewrite Hsd in Hlen. simpl in Hlen.
    intros H0. rewrite H0 in Hlen. simpl in Hlen. nia. }
  split; [ | split; [ reflexivity | split; [ reflexivity | split; [ | split ] ] ] ].
  - unfold NdArray.value_setter. rewrite get_array_type_scipy. simpl.
    unfold NdArray._set_scipy_sparse, np_stack_axis1. simpl.
    rewrite Nat.eqb_refl, String.eqb_refl. simpl.
    unfold set_cls_name, upd_sparse, upd_values, upd_indices,
      set_sparse_shape, set_parameter, sparse_of, _set_dense_array.
    cbn. rewrite Hsd. reflexivity.
  - subst P. simpl. apply lookup_insert_eq.
  - unfold NdArray._get_raw_sparse_array. subst P.
    cbn -[_get_dense_array]. rewrite Hi. cbn -[_get_dense_array].
    rewrite Hv. reflexivity.
  - unfold coo_matrix. change (nd_shape i) with [n; 2]. cbv beta iota.
    rewrite Hsd.
    destruct (decide ([n] = [n])); [ | congruence ].
    rewrite Hc0, Hc1. reflexivity.
Qed.

(** X15: a scipy matrix whose format is none of coo, csr, csc and bsr (dok,
    lil and dia are such formats) is stored by the setter with its format
    recorded, and the getter then returns the absent value instead of a
    matrix. *)
Theorem scipy_other_format_reads_back_absent
    (s : store) (self : loc) (m : spmatrix) (n rows cols : nat) :
  sp_format m <> "bsr" -> sp_format m <> "csc" ->
  sp_format m <> "csr" -> sp_format m <> "coo" ->
  sp_shape m = [rows; cols] ->
  0 < n ->
  wf_ndarray (sp_row m) -> nd_shape (sp_row m) = [n] ->
  wf_ndarray (sp_col m) -> nd_shape (sp_col m) = [n] ->
  nd_dtype (sp_row m) = nd_dtype (sp_col m) ->
  wf_ndarray (sp_data m) -> nd_shape (sp_data m) = [n] ->
  exists s', NdArray.value_setter self (ScipySparse m) s = Ok s' /\
             parameters (s' self) !! "sparse_format" = Some (sp_format m) /\
             NdArray.value (s' self) = Ok None.
Proof.
  intros F1 F2 F3 F4 Hshape Hn Hwr Hsr Hwc Hsc Hdt Hwd Hsd.
  destruct (scipy_set_record s self m n rows cols Hshape Hn Hwr Hsr Hwc Hsc
              Hdt Hwd Hsd)
    as (P & idx & Hset & Hs & Hc & Hf & Hraw & Hcoo).
  exists (upd s self P). split; [ exact Hset | ]. rewrite upd_same.
  split; [ exact Hf | ].
  rewrite (value_scipy_unrecognized P (sp_format m)) by assumption.
  rewrite Hraw. cbn [bind]. rewrite Hcoo. reflexivity.
Qed.

Lemma scipy_other_format_reads_back_absent_witness :
  exists s', NdArray.value_setter 0 (ScipySparse scipy_matrix_dok) fresh_store
             = Ok s' /\
             parameters (s' 0) !! "sparse_format" = Some "dok" /\
             NdArray.value (s' 0) = Ok None.
Proof.
  apply (scipy_other_format_reads_back_absent
           fresh_store 0 scipy_matrix_dok 2 2 2);
    try discriminate; try reflexivity; try lia.
  all: exists 4; split; reflexivity.
Defined.

(** ** The round trip of a scipy matrix in coordinate format *)

(** X10: a scipy matrix in coo format with at least one stored entry, with
    int32 coordinates and both dimensions below 2^31, is read back, after
    being set, in coo format over the same row, column and data arrays and
    the same shape: the getter's [idx.T] undoes the setter's stacking of
    the coordinates. *)
Theorem scipy_coo_roundtrip
    (s : store) (self : loc) (m : spmatrix) (n rows cols : nat) :
  sp_format m = "coo" ->
  sp_shape m = [rows; cols] ->
  (Z.of_nat rows < 2 ^ 31)%Z -> (Z.of_nat cols < 2 ^ 31)%Z ->
  0 < n ->
  wf_ndarray (sp_row m) -> nd_shape (sp_row m) = [n] ->
  nd_dtype (sp_row m) = "<i4" ->
  wf_ndarray (sp_col m) -> nd_shape (sp_col m) = [n] ->
  nd_dtype (sp_col m) = "<i4" ->
  wf_ndarray (sp_data m) -> nd_shape (sp_data m) = [n] ->
  exists s', NdArray.value_setter self (ScipySparse m) s = Ok s' /\
             NdArray.value (s' self) = Ok (Some (ScipySparse m)).
Proof.
  intros Hfmt Hshape _ _ Hn Hwr Hsr Hdr Hwc Hsc Hdc Hwd Hsd.
  assert (Hdt : nd_dtype (sp_row m) = nd_dtype (sp_col m)) by congruence.
  destruct (scipy_set_record s self m n rows cols Hshape Hn Hwr Hsr Hwc Hsc
              Hdt Hwd Hsd)
    as (P & idx & Hset & Hs & Hc & Hf & Hraw & Hcoo).
  exists (upd s self P). split; [ exact Hset | ]. rewrite upd_same.
  unfold NdArray.value. rewrite Hs, Hc.
  cbn [String.eqb Ascii.eqb Bool.eqb]. rewrite Hraw. cbn [bind].
  rewrite Hcoo. cbn [bind]. unfold parameters_getitem. rewrite Hf, Hfmt.
  cbn [bind String.eqb Ascii.eqb Bool.eqb].
  destruct m as [fmt data row col shp]. simpl in *. subst fmt shp.
  reflexivity.
Qed.

Lemma scipy_coo_roundtrip_witness :
  exists s', NdArray.value_setter 0 (ScipySparse scipy_matrix_coo) fresh_store
             = Ok s' /\
             NdArray.value (s' 0) = Ok (Some (ScipySparse scipy_matrix_coo)).
Proof.
  apply (scipy_coo_roundtrip fresh_store 0 scipy_matrix_coo 2 2 2);
    try reflexivity; try lia.
  all: exists 4; split; reflexivity.
Defined.
